(** * TextBlob [textblob.base]: the abstract base classes

    A shallow embedding of [src/textblob/base.py].  Python objects are
    attribute dictionaries ([gmap string PyVal]), methods are computations
    in a state-and-exception monad in which, as in Python, the state
    reached when an exception is raised stays observable, and a generator
    is the state machine the interpreter runs (created / suspended /
    closed) over the list it iterates. *)

From Stdlib Require Import String Ascii List ZArith Lia.
From stdpp Require Import base option strings gmap list.
Import ListNotations.
Local Open Scope string_scope.

(** ** Python values, exceptions and effectful methods *)

Module Py.

Inductive PyVal : Type :=
| VNone
| VBool (b : bool)
| VInt (z : Z)
| VStr (s : string).

Inductive PyExc : Type :=
| AttributeError (name : string)
| StopIteration
| ValueError (msg : string)
| LookupError (msg : string).

#[global] Instance PyVal_eq_dec : EqDecision PyVal.
Proof. solve_decision. Defined.

#[global] Instance PyExc_eq_dec : EqDecision PyExc.
Proof. solve_decision. Defined.

(** Truth value testing, as [not x] and [if x] use it. *)
Definition truthy (v : PyVal) : bool :=
  match v with
  | VNone => false
  | VBool b => b
  | VInt z => negb (Z.eqb z 0)
  | VStr s => negb (String.eqb s "")
  end.

(** A method body running on a state [S]: it returns a value or raises,
    and in both cases leaves a state behind. *)
Definition M (S A : Type) : Type := S -> (PyExc + A) * S.

Definition ret {S A} (a : A) : M S A := fun s => (inr a, s).

Definition raise {S A} (e : PyExc) : M S A := fun s => (inl e, s).

Definition bind {S A B} (m : M S A) (k : A -> M S B) : M S B :=
  fun s =>
    match m s with
    | (inl e, s') => (inl e, s')
    | (inr a, s') => k a s'
    end.

End Py.

Import Py.

Declare Scope py_scope.
Delimit Scope py_scope with py.
Notation "'let*' x ':=' m 'in' k" := (bind m (fun x => k))
  (at level 10, x name, m at level 100, k at level 200) : py_scope.
Notation "m '>>' k" := (bind m (fun _ => k))
  (at level 65, right associativity) : py_scope.
Local Open Scope py_scope.

(** ** Tokenizers *)

Module Tokenizers.

(** Positional and keyword arguments of a call. *)
Definition Args : Type := list PyVal.
Definition KwArgs : Type := list (string * PyVal).

(** [BaseTokenizer]: the abstract method [tokenize], implemented by each
    concrete tokenizer over its own instance state [T].  The source
    declares it with [text] only; [itokenize] passes it whatever extra
    arguments it was given. *)
Class BaseTokenizer (T : Type) : Type := {
  tokenize : string -> Args -> KwArgs -> M T (list string)
}.

(** The generator object built by [(t for t in iterable)].  [items] is
    the list the generator iterates, [cursor] the index of the list
    iterator, [status] the state of the generator frame. *)
Inductive GenStatus : Type := GEN_CREATED | GEN_SUSPENDED | GEN_CLOSED.

#[global] Instance GenStatus_eq_dec : EqDecision GenStatus.
Proof. solve_decision. Defined.

Record generator : Type := {
  items : list string;
  cursor : nat;
  status : GenStatus
}.

(** Evaluating a generator expression: the iterable is already a value;
    no element has been requested. *)
Definition genexpr (l : list string) : generator :=
  {| items := l; cursor := 0; status := GEN_CREATED |}.

(** [itokenize]: [return (t for t in self.tokenize(text, *args, **kwargs))].
    The outermost iterable of a generator expression is evaluated when
    the expression is, so [tokenize] runs here, inside the call. *)
Definition itokenize {T} `{BaseTokenizer T}
    (text : string) (args : Args) (kwargs : KwArgs) : M T generator :=
  let* l := tokenize text args kwargs in
  ret (genexpr l).

(** [next(g)]: resume the frame; the [for] asks the list iterator for the
    element at [cursor], which is yielded, or the loop ends and the
    generator is closed for good. *)
Definition gen_next (g : generator) : (PyExc + string) * generator :=
  match status g with
  | GEN_CLOSED => (inl StopIteration, g)
  | _ =>
      match items g !! cursor g with
      | Some t =>
          (inr t, {| items := items g; cursor := S (cursor g);
                     status := GEN_SUSPENDED |})
      | None =>
          (inl StopIteration, {| items := items g; cursor := cursor g;
                                 status := GEN_CLOSED |})
      end
  end.

(** [list(g)]: call [next] until it raises ([StopIteration] is all
    [gen_next] raises).  [fuel] bounds the number of calls; [None] is
    running out of it. *)
Fixpoint drain (fuel : nat) (g : generator) : option (list string * generator) :=
  match fuel with
  | O => None
  | S fuel' =>
      match gen_next g with
      | (inr t, g') =>
          match drain fuel' g' with
          | Some (ts, g'') => Some (t :: ts, g'')
          | None => None
          end
      | (inl _, g') => Some ([], g')
      end
  end.

(** Tokens not yet handed out: what is left of [items] from [cursor]. *)
Definition remaining (g : generator) : list string :=
  match status g with
  | GEN_CLOSED => []
  | _ => drop (cursor g) (items g)
  end.

Definition py_list (g : generator) : option (list string * generator) :=
  drain (S (length (remaining g))) g.

(** [list(self.itokenize(text, *args, **kwargs))] on a tokenizer in
    state [self]. *)
Definition list_itokenize {T} `{BaseTokenizer T}
    (text : string) (args : Args) (kwargs : KwArgs) (self : T)
    : option ((PyExc + list string) * T) :=
  match itokenize text args kwargs self with
  | (inl e, self') => Some (inl e, self')
  | (inr g, self') =>
      match py_list g with
      | Some (ts, _) => Some (inr ts, self')
      | None => None
      end
  end.

(** The generator after a consumer has made [n] requests. *)
Fixpoint advance (n : nat) (g : generator) : generator :=
  match n with
  | O => g
  | S n' => advance n' (snd (gen_next g))
  end.

End Tokenizers.

Import Tokenizers.

(** ** Sentiment analyzers *)

Module Sentiment.

Definition DISCRETE : string := "ds".
Definition CONTINUOUS : string := "co".


(** The data attributes of the class body of [BaseSentimentAnalyzer]:
    [kind = DISCRETE].  ([_trained: bool] is an annotation only and binds
    nothing.) *)
Definition BaseSentimentAnalyzer : gmap string PyVal :=
  {[ "kind" := VStr DISCRETE ]}.

(** Attribute lookup along a method resolution order, the most derived
    class first. *)
Fixpoint mro_lookup (mro : list (gmap string PyVal)) (name : string)
    : option PyVal :=
  match mro with
  | [] => None
  | ns :: bases =>
      match ns !! name with
      | Some v => Some v
      | None => mro_lookup bases name
      end
  end.

(** An analyzer instance: its class (as the namespaces of its MRO), its
    [__dict__], and, as instrumentation, how many times [train()] has
    been entered on it. *)
Record analyzer : Type := {
  klass : list (gmap string PyVal);
  dict : gmap string PyVal;
  train_calls : nat
}.

Definition setattr (name : string) (v : PyVal) : M analyzer unit :=
  fun self =>
    (inr tt, {| klass := klass self; dict := <[name := v]> (dict self);
                train_calls := train_calls self |}).

Definition getattr (name : string) : M analyzer PyVal :=
  fun self =>
    match dict self !! name with
    | Some v => (inr v, self)
    | None =>
        match mro_lookup (klass self) name with
        | Some v => (inr v, self)
        | None => (inl (AttributeError name), self)
        end
    end.

(** [def __init__(self): self._trained = False] *)
Definition __init__ : M analyzer unit :=
  setattr "_trained" (VBool false).

(** [def train(self): self._trained = True] *)
Definition train : M analyzer unit :=
  setattr "_trained" (VBool true).

(** The call [self.train()]: it is dispatched on the instance, so [impl]
    is the body of whichever [train] the instance's class defines;
    entering it is counted. *)
Definition call_train (impl : M analyzer unit) : M analyzer unit :=
  fun self =>
    impl {| klass := klass self; dict := dict self;
            train_calls := S (train_calls self) |}.

(** The body of [analyze]:
    [if not self._trained: self.train()] and then [return None]. *)
Definition analyze (impl : M analyzer unit) (text : string)
    : M analyzer PyVal :=
  let* t := getattr "_trained" in
  let* _ := (if negb (truthy t) then call_train impl else ret tt) in
  ret VNone.

(** Creating an instance of a class with MRO [mro]: an empty [__dict__],
    then [__init__]. *)
Definition new_instance (mro : list (gmap string PyVal)) : analyzer :=
  {| klass := mro; dict := ∅; train_calls := 0 |}.

Definition construct (mro : list (gmap string PyVal)) : analyzer :=
  snd (__init__ (new_instance mro)).

(** The two states of the trained flag. *)
Definition trained (self : analyzer) : Prop :=
  dict self !! "_trained" = Some (VBool true).

Definition untrained (self : analyzer) : Prop :=
  dict self !! "_trained" = Some (VBool false).

(** The operations of the contract, as a caller issues them on an
    analyzer of the base class. *)
Inductive op : Type :=
| Train
| Analyze (text : string).

Definition run_op (o : op) : M analyzer PyVal :=
  match o with
  | Train => call_train train >> ret VNone
  | Analyze text => analyze train text
  end.

(** A caller issuing operations one after the other; the instance
    carries over from each call to the next, whatever the call's outcome. *)
Fixpoint run_ops (os : list op) (self : analyzer) : analyzer :=
  match os with
  | [] => self
  | o :: os' => run_ops os' (snd (run_op o self))
  end.

(** Overrides of [train] used as test doubles: one that raises at once,
    and one that calls [super().train()] first and fails in the work that
    follows (a corpus that cannot be loaded). *)
Definition failing_train (e : PyExc) : M analyzer unit := raise e.

Definition train_super_first (e : PyExc) : M analyzer unit :=
  train >> raise e.

End Sentiment.

Import Sentiment.

(** ** Test doubles for tokenizers *)

Module Doubles.

Definition is_space (c : ascii) : bool :=
  match nat_of_ascii c with
  | 9 | 10 | 11 | 12 | 13 | 32 => true
  | _ => false
  end.

Definition flush (cur : string) : list string :=
  if String.eqb cur "" then [] else [cur].

(** [text.split()]: split on runs of whitespace, no empty tokens. *)
Fixpoint split_ws (cur text : string) : list string :=
  match text with
  | EmptyString => flush cur
  | String c rest =>
      if is_space c then flush cur ++ split_ws "" rest
      else split_ws (cur +:+ String c "") rest
  end.

(** [text.split(" ")]: split at every single space, empty tokens kept. *)
Fixpoint split_space (cur text : string) : list string :=
  match text with
  | EmptyString => [cur]
  | String c rest =>
      if Ascii.eqb c " " then cur :: split_space "" rest
      else split_space (cur +:+ String c "") rest
  end.

(** The tokenizer of the end-to-end scenario: splits on whitespace. *)
Inductive WhitespaceTokenizer : Type := whitespace_tokenizer.

#[global] Instance WhitespaceTokenizer_tokenize : BaseTokenizer WhitespaceTokenizer :=
  {| tokenize text _ _ := ret (split_ws "" text) |}.

(** A tokenizer whose [tokenize] is [text.split(" ")]. *)
Inductive SpaceTokenizer : Type := space_tokenizer.

#[global] Instance SpaceTokenizer_tokenize : BaseTokenizer SpaceTokenizer :=
  {| tokenize text _ _ := ret (split_space "" text) |}.

(** A tokenizer that rejects empty text as invalid input. *)
Inductive StrictTokenizer : Type := strict_tokenizer.

#[global] Instance StrictTokenizer_tokenize : BaseTokenizer StrictTokenizer :=
  {| tokenize text _ _ :=
       if String.eqb text "" then raise (ValueError "empty text")
       else ret (split_ws "" text) |}.

(** A spy around any tokenizer: it records the arguments of every call
    of [tokenize] and passes the call on. *)
Record Spy (T : Type) : Type := {
  inner : T;
  calls : list (string * Args * KwArgs)
}.
Arguments inner {T} _.
Arguments calls {T} _.

Definition spy {T} (self : T) : Spy T := {| inner := self; calls := [] |}.

#[global] Instance Spy_tokenize {T} `{BaseTokenizer T} : BaseTokenizer (Spy T) :=
  {| tokenize text args kwargs := fun self =>
       match tokenize text args kwargs (inner self) with
       | (r, inner') =>
           (r, {| inner := inner';
                  calls := calls self ++ [(text, args, kwargs)] |})
       end |}.

End Doubles.

Import Doubles.

(** ** Callers: consumers of the generator, repeated calls *)

Module Callers.

(** A consumer that asks for at most [n] tokens and keeps what it is
    given, stopping at [StopIteration] (as [list(itertools.islice(g, n))]
    does). *)
Fixpoint request (n : nat) (g : generator) : list string * generator :=
  match n with
  | O => ([], g)
  | S n' =>
      match gen_next g with
      | (inr t, g') =>
          match request n' g' with
          | (ts, g'') => (t :: ts, g'')
          end
      | (inl _, g') => ([], g')
      end
  end.

(** A caller making one [itokenize] call after the other on the same
    tokenizer, whatever each call's outcome. *)
Fixpoint itokenize_each {T} `{BaseTokenizer T}
    (reqs : list (string * Args * KwArgs)) (self : T) : T :=
  match reqs with
  | [] => self
  | (text, args, kwargs) :: rest =>
      itokenize_each rest (snd (itokenize text args kwargs self))
  end.

(** A caller making one [analyze] call after the other on an instance
    whose class has [impl] for [train], whatever each call's outcome. *)
Fixpoint analyze_each (impl : M analyzer unit) (texts : list string)
    (self : analyzer) : analyzer :=
  match texts with
  | [] => self
  | text :: rest => analyze_each impl rest (snd (analyze impl text self))
  end.

Definition is_train (o : op) : bool :=
  match o with
  | Train => true
  | Analyze _ => false
  end.

End Callers.

Import Callers.

(** ** Abstract methods *)

Module Abc.

(** The methods a class body defines, each with whether it carries
    [@abstractmethod]. *)
Definition BaseTagger_methods : gmap string bool :=
  {[ "tag" := true ]}.

Definition BaseNPExtractor_methods : gmap string bool :=
  {[ "extract" := true ]}.

Definition BaseTokenizer_methods : gmap string bool :=
  <[ "tokenize" := true ]> {[ "itokenize" := false ]}.

Definition BaseSentimentAnalyzer_methods : gmap string bool :=
  <[ "__init__" := false ]> (<[ "train" := false ]> {[ "analyze" := true ]}).

Definition BaseParser_methods : gmap string bool :=
  {[ "parse" := true ]}.

(** The definition of a method a class sees: the first one along its
    MRO. *)
Fixpoint method_lookup (mro : list (gmap string bool)) (name : string)
    : option bool :=
  match mro with
  | [] => None
  | ns :: bases =>
      match ns !! name with
      | Some a => Some a
      | None => method_lookup bases name
      end
  end.

(** [__abstractmethods__], as [ABCMeta] computes it when the class is
    created: the abstract methods of the class body, and those of the
    base's set that the new class still sees as abstract. *)
Fixpoint abstractmethods (mro : list (gmap string bool)) : gset string :=
  match mro with
  | [] => ∅
  | ns :: bases =>
      dom (filter (fun kv : string * bool => kv.2 = true) ns)
      ∪ filter (fun name : string =>
                  method_lookup (ns :: bases) name = Some true)
               (abstractmethods bases)
  end.

(** Creating an instance: [TypeError] when abstract methods are left. *)
Inductive NewError : Type :=
| TypeError_abstract (names : gset string).

Definition object_new (mro : list (gmap string bool)) : NewError + unit :=
  if decide (abstractmethods mro = ∅) then inr tt
  else inl (TypeError_abstract (abstractmethods mro)).

(** The five base classes of the module, each with the method it
    declares abstract. *)
Definition abstract_bases : list (gmap string bool * string) :=
  [ (BaseTagger_methods, "tag");
    (BaseNPExtractor_methods, "extract");
    (BaseTokenizer_methods, "tokenize");
    (BaseSentimentAnalyzer_methods, "analyze");
    (BaseParser_methods, "parse") ].

End Abc.

Import Abc.

(** * Properties *)

(** ** Generators over a list *)

Section Generators.

Implicit Types (g : generator) (l : list string).

Lemma remaining_genexpr l : remaining (genexpr l) = l.
Proof. reflexivity. Qed.

Lemma gen_next_closed g :
  status g = GEN_CLOSED -> gen_next g = (inl StopIteration, g).
Proof. intros Hst. unfold gen_next. now rewrite Hst. Qed.

(** A request on an open generator with an element at the cursor hands
    out that element, and only that one. *)
Lemma gen_next_yield g t :
  status g <> GEN_CLOSED ->
  items g !! cursor g = Some t ->
  gen_next g = (inr t, {| items := items g; cursor := S (cursor g);
                          status := GEN_SUSPENDED |}).
Proof.
  intros Hst Hlk. unfold gen_next. rewrite Hlk.
  destruct (status g); congruence.
Qed.

(** A request past the last element closes the generator. *)
Lemma gen_next_stop g :
  status g <> GEN_CLOSED ->
  items g !! cursor g = None ->
  gen_next g = (inl StopIteration, {| items := items g; cursor := cursor g;
                                      status := GEN_CLOSED |}).
Proof.
  intros Hst Hlk. unfold gen_next. rewrite Hlk.
  destruct (status g); congruence.
Qed.

Lemma remaining_yield g t :
  status g <> GEN_CLOSED ->
  items g !! cursor g = Some t ->
  remaining g = t :: remaining {| items := items g; cursor := S (cursor g);
                                  status := GEN_SUSPENDED |}.
Proof.
  intros Hst Hlk. unfold remaining; simpl.
  rewrite (drop_S _ _ _ Hlk). destruct (status g); congruence.
Qed.

Lemma remaining_stop g :
  items g !! cursor g = None -> remaining g = [].
Proof.
  intros Hlk. unfold remaining.
  apply lookup_ge_None in Hlk. rewrite drop_ge by lia.
  now destruct (status g).
Qed.

(** Every request leaves the iterated list alone and never moves the
    cursor backwards. *)
Lemma gen_next_items g : items (snd (gen_next g)) = items g.
Proof.
  unfold gen_next.
  destruct (status g); try reflexivity;
    destruct (items g !! cursor g); reflexivity.
Qed.

Lemma gen_next_cursor_mono g : cursor g <= cursor (snd (gen_next g)).
Proof.
  unfold gen_next.
  destruct (status g); simpl; try lia;
    destruct (items g !! cursor g); simpl; lia.
Qed.

(** With more fuel than tokens left, draining returns exactly the tokens
    left and a closed generator over the same list. *)
Lemma drain_remaining fuel : forall g,
  length (remaining g) < fuel ->
  exists g', drain fuel g = Some (remaining g, g')
             /\ status g' = GEN_CLOSED /\ items g' = items g.
Proof.
  induction fuel as [|fuel IH]; intros g Hlen; [lia|].
  destruct (decide (status g = GEN_CLOSED)) as [Hc|Ho].
  - exists g. simpl. rewrite (gen_next_closed g Hc).
    unfold remaining. now rewrite Hc.
  - destruct (items g !! cursor g) as [t|] eqn:Hlk.
    + simpl. rewrite (gen_next_yield g t Ho Hlk).
      rewrite (remaining_yield g t Ho Hlk) in Hlen |- *.
      simpl in Hlen.
      destruct (IH {| items := items g; cursor := S (cursor g);
                      status := GEN_SUSPENDED |}) as (g' & Hd & Hs & Hi);
        [lia|].
      exists g'. now rewrite Hd.
    + simpl. rewrite (gen_next_stop g Ho Hlk), (remaining_stop g Hlk).
      eexists; repeat split; reflexivity.
Qed.

Lemma py_list_remaining g :
  exists g', py_list g = Some (remaining g, g')
             /\ status g' = GEN_CLOSED /\ items g' = items g.
Proof. apply drain_remaining. lia. Qed.

Lemma py_list_genexpr l :
  exists g', py_list (genexpr l) = Some (l, g') /\ status g' = GEN_CLOSED.
Proof.
  destruct (py_list_remaining (genexpr l)) as (g' & Hd & Hs & _).
  exists g'. now rewrite Hd, remaining_genexpr.
Qed.

(** A closed generator stays closed: every further request raises
    [StopIteration] and a second [list(g)] is empty. *)
Lemma closed_absorbing g :
  status g = GEN_CLOSED ->
  gen_next g = (inl StopIteration, g) /\ py_list g = Some ([], g).
Proof.
  intros Hc. split; [now apply gen_next_closed|].
  unfold py_list, remaining. rewrite Hc. simpl.
  now rewrite (gen_next_closed g Hc).
Qed.

End Generators.

(** ** [BaseTokenizer.itokenize] *)

Section Itokenize.

Context {T : Type} `{BaseTokenizer T}.

Implicit Types (text : string) (args : Args) (kwargs : KwArgs) (self : T).

(** [itokenize] makes one call of [tokenize], with its own arguments, and
    wraps what it returns; a failure of [tokenize] is a failure of the
    [itokenize] call itself. *)
Lemma itokenize_inv text args kwargs self g self' :
  itokenize text args kwargs self = (inr g, self') ->
  tokenize text args kwargs self = (inr (items g), self')
  /\ g = genexpr (items g).
Proof.
  unfold itokenize, bind, ret.
  destruct (tokenize text args kwargs self) as [[e|l] s1]; [discriminate|].
  intros [= <- <-]. split; reflexivity.
Qed.

Lemma itokenize_raises text args kwargs self e self' :
  tokenize text args kwargs self = (inl e, self') ->
  itokenize text args kwargs self = (inl e, self').
Proof. intros Htk. unfold itokenize, bind. now rewrite Htk. Qed.

Lemma list_itokenize_tokenize text args kwargs self :
  list_itokenize text args kwargs self = Some (tokenize text args kwargs self).
Proof.
  unfold list_itokenize, itokenize, bind, ret.
  destruct (tokenize text args kwargs self) as [[e|l] s1]; [reflexivity|].
  destruct (py_list_genexpr l) as (g' & Hd & _). now rewrite Hd.
Qed.

Lemma itokenize_spy_calls text args kwargs self :
  calls (snd (itokenize text args kwargs (spy self))) = [(text, args, kwargs)].
Proof.
  unfold itokenize, bind, ret. simpl.
  destruct (tokenize text args kwargs self) as [[e|l] s1]; reflexivity.
Qed.

End Itokenize.

Section GeneratorRuns.

Implicit Types (g : generator) (l : list string).

Lemma advance_closed n : forall g, status g = GEN_CLOSED -> advance n g = g.
Proof.
  induction n as [|n IH]; intros g Hc; [reflexivity|].
  simpl. rewrite (gen_next_closed g Hc). simpl. now apply IH.
Qed.

Lemma advance_step n : forall g, advance (S n) g = snd (gen_next (advance n g)).
Proof.
  induction n as [|n IH]; intros g; [reflexivity|].
  change (advance (S (S n)) g) with (advance (S n) (snd (gen_next g))).
  now rewrite IH.
Qed.

(** While tokens are left, [n] requests move the cursor by [n] and leave
    the frame suspended at its [yield]. *)
Lemma advance_open n : forall g,
  status g <> GEN_CLOSED ->
  cursor g + S n <= length (items g) ->
  advance (S n) g = {| items := items g; cursor := cursor g + S n;
                       status := GEN_SUSPENDED |}.
Proof.
  induction n as [|n IH]; intros g Ho Hlen.
  - destruct (lookup_lt_is_Some_2 (items g) (cursor g)) as [t Hlk]; [lia|].
    simpl. rewrite (gen_next_yield g t Ho Hlk). simpl.
    f_equal. lia.
  - destruct (lookup_lt_is_Some_2 (items g) (cursor g)) as [t Hlk]; [lia|].
    change (advance (S (S n)) g) with (advance (S n) (snd (gen_next g))).
    rewrite (gen_next_yield g t Ho Hlk). simpl snd.
    rewrite IH; simpl; [f_equal; lia | discriminate | lia].
Qed.

Lemma advance_genexpr_cursor n l :
  n <= length l ->
  items (advance n (genexpr l)) = l
  /\ cursor (advance n (genexpr l)) = n
  /\ status (advance n (genexpr l)) <> GEN_CLOSED.
Proof.
  intros Hn. destruct n as [|n].
  - simpl. repeat split. discriminate.
  - rewrite advance_open; simpl; [|discriminate|lia].
    repeat split. discriminate.
Qed.

(** One request more than there are tokens closes the generator, and it
    stays closed. *)
Lemma advance_genexpr_past n l :
  length l < n ->
  advance n (genexpr l) = {| items := l; cursor := length l;
                             status := GEN_CLOSED |}.
Proof.
  intros Hn.
  assert (Hk : exists k, n = S k + length l /\ True)
    by (exists (n - S (length l)); split; [lia|exact I]).
  destruct Hk as (k & -> & _). clear Hn.
  induction k as [|k IH].
  - change (S 0 + length l) with (S (length l)). rewrite advance_step.
    destruct (advance_genexpr_cursor (length l) l) as (Hi & Hc & Ho); [lia|].
    rewrite gen_next_stop; [|exact Ho|].
    + simpl. now rewrite Hi, Hc.
    + rewrite Hi, Hc. apply lookup_ge_None. lia.
  - change (S (S k) + length l) with (S (S k + length l)).
    rewrite advance_step, IH. reflexivity.
Qed.

End GeneratorRuns.

(** ** The claims on [itokenize] *)

(** C1, as the code has it.  For every tokenizer that inherits
    [itokenize], every text (the empty string included) and all extra
    positional and keyword arguments: [list(itokenize(text, *args,
    **kwargs))] always returns, and what it returns is what
    [tokenize(text, *args, **kwargs)] does on the same instance (the same
    tokens, or the same exception, and the same instance state); the one
    call of [tokenize] receives [text], [args] and [kwargs] unchanged, as
    a spy around the tokenizer records; and on the empty string the
    result is the empty sequence exactly when [tokenize] returns the
    empty list for it. *)
Theorem itokenize_materializes_tokenize :
  forall (T : Type) (Tok : BaseTokenizer T)
         (text : string) (args : Args) (kwargs : KwArgs) (self : T),
    list_itokenize text args kwargs self = Some (tokenize text args kwargs self)
    /\ calls (snd (itokenize text args kwargs (spy self)))
       = [(text, args, kwargs)]
    /\ (forall self',
          list_itokenize "" args kwargs self = Some (inr [], self')
          <-> tokenize "" args kwargs self = (inr [], self')).
Proof.
  intros T Tok text args kwargs self. split; [|split].
  - apply list_itokenize_tokenize.
  - apply itokenize_spy_calls.
  - intros self'. rewrite list_itokenize_tokenize. split.
    + now intros [= ->].
    + now intros ->.
Qed.

(** C1 as stated fails on its last clause: with a tokenizer whose
    [tokenize] is [text.split(" ")] the empty string yields the one-token
    sequence [[""]], and with a tokenizer that rejects empty text it
    yields that failure; so the empty string does not yield an empty
    sequence for every tokenizer. *)
Lemma itokenize_empty_text_counterexample :
  list_itokenize "" [] [] space_tokenizer = Some (inr [""], space_tokenizer)
  /\ list_itokenize "" [] [] strict_tokenizer
     = Some (inl (ValueError "empty text"), strict_tokenizer)
  /\ ~ (forall (T : Type) (Tok : BaseTokenizer T) (self : T),
          exists self', list_itokenize "" [] [] self = Some (inr [], self')).
Proof.
  split; [reflexivity|]. split; [reflexivity|].
  intros Hall. destruct (Hall _ _ space_tokenizer) as [self' Heq].
  vm_compute in Heq. discriminate Heq.
Qed.

(** C8, as the code has it.  When [itokenize(text, *args, **kwargs)]
    returns a generator, [tokenize] has already run to completion inside
    that call: the generator holds the whole token list, no token handed
    out yet.  From there the sequence is handed out on demand and in one
    pass: the request number [n] yields the token of index [n] and leaves
    the frame suspended with the cursor one further; any request past the
    last token raises [StopIteration] and leaves the generator closed;
    and after one [list(g)] the generator is closed, so that a further
    request raises [StopIteration] and a second [list(g)] is empty. *)
Theorem itokenize_eager_single_pass :
  forall (T : Type) (Tok : BaseTokenizer T)
         (text : string) (args : Args) (kwargs : KwArgs) (self self' : T)
         (g : generator),
    itokenize text args kwargs self = (inr g, self') ->
    (tokenize text args kwargs self = (inr (items g), self')
     /\ cursor g = 0 /\ status g = GEN_CREATED)
    /\ (forall n t,
          items g !! n = Some t ->
          gen_next (advance n g) = (inr t, advance (S n) g)
          /\ status (advance (S n) g) = GEN_SUSPENDED
          /\ cursor (advance (S n) g) = S n
          /\ items (advance (S n) g) = items g)
    /\ (forall n,
          length (items g) < n ->
          status (advance n g) = GEN_CLOSED
          /\ gen_next (advance n g) = (inl StopIteration, advance n g))
    /\ (exists g',
          py_list g = Some (items g, g')
          /\ gen_next g' = (inl StopIteration, g')
          /\ py_list g' = Some ([], g')).
Proof.
  intros T Tok text args kwargs self self' g Hit.
  destruct (itokenize_inv _ _ _ _ _ _ Hit) as [Htk Hg].
  set (l := items g) in *. rewrite Hg. clearbody l. clear Hg Hit.
  split; [|split; [|split]].
  - repeat split. exact Htk.
  - intros n t Hlk. simpl in Hlk.
    assert (Hn : n < length l) by (eapply lookup_lt_Some; exact Hlk).
    destruct (advance_genexpr_cursor n l) as (Hi & Hc & Ho); [lia|].
    rewrite advance_step.
    rewrite (gen_next_yield (advance n (genexpr l)) t Ho)
      by (now rewrite Hi, Hc).
    simpl. now rewrite Hi, Hc.
  - intros n Hn. simpl in Hn. rewrite (advance_genexpr_past n l Hn).
    split; [reflexivity|]. now apply gen_next_closed.
  - destruct (py_list_genexpr l) as (g' & Hd & Hc).
    exists g'. split; [exact Hd|]. now apply closed_absorbing.
Qed.

Lemma itokenize_eager_single_pass_witness :
  itokenize "the quick fox" [] [] whitespace_tokenizer
  = (inr (genexpr ["the"; "quick"; "fox"]), whitespace_tokenizer)
  /\ gen_next (advance 1 (genexpr ["the"; "quick"; "fox"]))
     = (inr "quick", advance 2 (genexpr ["the"; "quick"; "fox"])).
Proof.
  split; [reflexivity|].
  apply (itokenize_eager_single_pass WhitespaceTokenizer _
           "the quick fox" [] [] whitespace_tokenizer whitespace_tokenizer
           (genexpr ["the"; "quick"; "fox"])); reflexivity.
Defined.

(** C8 as stated fails on "no token is computed before the first element
    is requested": when [itokenize("the quick fox")] returns, the spy has
    recorded the call of [tokenize] and the generator, on which no
    request has been made, already holds the three tokens; and a
    tokenizer that rejects its text makes the [itokenize] call itself
    fail, before any request.  So the tokens computed are not bounded by
    the tokens requested. *)
Lemma itokenize_computes_ahead_counterexample :
  itokenize "the quick fox" [] [] (spy whitespace_tokenizer)
  = (inr {| items := ["the"; "quick"; "fox"]; cursor := 0;
            status := GEN_CREATED |},
     {| inner := whitespace_tokenizer;
        calls := [("the quick fox", [], [])] |})
  /\ itokenize "" [] [] strict_tokenizer
     = (inl (ValueError "empty text"), strict_tokenizer)
  /\ ~ (forall (T : Type) (Tok : BaseTokenizer T) (text : string)
               (self self' : T) (g : generator),
          itokenize text [] [] self = (inr g, self') ->
          length (items g) <= cursor g).
Proof.
  split; [reflexivity|]. split; [reflexivity|].
  intros Hall.
  assert (Hlen : length ["the"; "quick"; "fox"] <= 0); [|simpl in Hlen; lia].
  apply (Hall _ _ "the quick fox" whitespace_tokenizer whitespace_tokenizer
              (genexpr ["the"; "quick"; "fox"])).
  reflexivity.
Qed.

(** ** [BaseSentimentAnalyzer] *)

Section Analyzer.

Implicit Types (self : analyzer) (impl : M analyzer unit) (text : string).

Lemma train_eq self :
  train self = (inr tt, {| klass := klass self;
                           dict := <["_trained" := VBool true]> (dict self);
                           train_calls := train_calls self |}).
Proof. reflexivity. Qed.

Lemma train_trained self : trained (snd (train self)).
Proof. unfold trained. simpl. apply lookup_insert_eq. Qed.

Lemma call_train_train self :
  call_train train self
  = (inr tt, {| klass := klass self;
                dict := <["_trained" := VBool true]> (dict self);
                train_calls := S (train_calls self) |}).
Proof. reflexivity. Qed.

Lemma getattr_dict name v self :
  dict self !! name = Some v -> getattr name self = (inr v, self).
Proof. intros Hlk. unfold getattr. now rewrite Hlk. Qed.

(** A trained instance: [analyze] skips the training step and changes
    nothing. *)
Lemma analyze_trained impl text self :
  trained self -> analyze impl text self = (inr VNone, self).
Proof.
  intros Ht. unfold analyze, bind.
  now rewrite (getattr_dict _ _ _ Ht).
Qed.

(** An untrained instance: [analyze] is the call [self.train()], its
    exception let through, its result replaced by [None]. *)
Lemma analyze_untrained impl text self :
  untrained self ->
  analyze impl text self
  = match call_train impl self with
    | (inl e, self') => (inl e, self')
    | (inr _, self') => (inr VNone, self')
    end.
Proof.
  intros Hu. unfold analyze, bind.
  rewrite (getattr_dict _ _ _ Hu). simpl.
  now destruct (call_train impl self) as [[e|[]] s1].
Qed.

(** [analyze] writes nothing of its own: the instance it leaves is the
    one it found or the one [self.train()] left. *)
Lemma analyze_state impl text self :
  snd (analyze impl text self) = self
  \/ snd (analyze impl text self) = snd (call_train impl self).
Proof.
  unfold analyze, bind, getattr.
  destruct (dict self !! "_trained") as [v|].
  - destruct (truthy v); simpl; [now left|].
    right. now destruct (call_train impl self) as [[e|[]] s1].
  - destruct (mro_lookup (klass self) "_trained") as [v|]; [|now left].
    destruct (truthy v); simpl; [now left|].
    right. now destruct (call_train impl self) as [[e|[]] s1].
Qed.

Lemma analyze_train_untrained text self :
  untrained self ->
  analyze train text self = (inr VNone, snd (call_train train self)).
Proof. intros Hu. now rewrite (analyze_untrained _ _ _ Hu). Qed.

Lemma trained_not_untrained self : trained self -> ~ untrained self.
Proof. unfold trained, untrained. congruence. Qed.

Lemma trained_not_untrained_l self : untrained self -> ~ trained self.
Proof. unfold trained, untrained. congruence. Qed.

(** Each operation of the contract keeps a trained instance trained. *)
Lemma run_op_trained o self : trained self -> trained (snd (run_op o self)).
Proof.
  intros Ht. destruct o as [|text]; simpl.
  - unfold trained. simpl. apply lookup_insert_eq.
  - now rewrite (analyze_trained _ _ _ Ht).
Qed.

Lemma run_ops_trained os : forall self,
  trained self -> trained (run_ops os self).
Proof.
  induction os as [|o os IH]; intros self Ht; [exact Ht|].
  simpl. apply IH. now apply run_op_trained.
Qed.

(** Further [analyze] calls on a trained instance leave it as it is. *)
Lemma run_ops_analyze_trained texts : forall self,
  trained self -> run_ops (map Analyze texts) self = self.
Proof.
  induction texts as [|text texts IH]; intros self Ht; [reflexivity|].
  simpl. rewrite (analyze_trained _ _ _ Ht). simpl. now apply IH.
Qed.

(** Further [analyze] calls on a trained instance leave it as it is,
    whatever [train] its class has. *)
Lemma analyze_each_trained impl texts : forall self,
  trained self -> analyze_each impl texts self = self.
Proof.
  induction texts as [|text texts IH]; intros self Ht; [reflexivity|].
  cbn [analyze_each]. rewrite (analyze_trained impl text self Ht).
  now apply IH.
Qed.


Lemma construct_untrained mro : untrained (construct mro).
Proof. unfold untrained, construct. simpl. apply lookup_insert_eq. Qed.

Lemma mro_lookup_app_None subs bases name :
  Forall (fun ns : gmap string PyVal => ns !! name = None) subs ->
  mro_lookup (subs ++ bases) name = mro_lookup bases name.
Proof.
  induction 1 as [|ns subs Hns _ IH]; [reflexivity|].
  simpl. now rewrite Hns.
Qed.





End Analyzer.

(** ** The claims on the sentiment analyzer *)




(** C3, as the code has it.  When the [train()] that [analyze(text)]
    calls on an untrained instance raises, [analyze] raises the same
    exception and leaves the instance exactly as the failing [train()]
    left it: [analyze] sets nothing itself.  So the flag is unset after
    the failure exactly when the failing [train()] left it unset. *)
Theorem analyze_propagates_train_failure :
  forall (impl : M analyzer unit) (text : string) (self self' : analyzer)
         (e : PyExc),
    untrained self ->
    call_train impl self = (inl e, self') ->
    analyze impl text self = (inl e, self')
    /\ (untrained (snd (analyze impl text self)) <-> untrained self').
Proof.
  intros impl text self self' e Hu Hfail.
  rewrite (analyze_untrained impl text self Hu), Hfail.
  split; reflexivity.
Qed.

Lemma analyze_propagates_train_failure_witness :
  untrained (construct [BaseSentimentAnalyzer])
  /\ fst (analyze (failing_train (LookupError "movie_reviews")) "good"
            (construct [BaseSentimentAnalyzer]))
     = inl (LookupError "movie_reviews")
  /\ untrained (snd (analyze (failing_train (LookupError "movie_reviews"))
                       "good" (construct [BaseSentimentAnalyzer]))).
Proof.
  split; [reflexivity|].
  destruct (analyze_propagates_train_failure
              (failing_train (LookupError "movie_reviews")) "good"
              (construct [BaseSentimentAnalyzer])
              (snd (call_train (failing_train (LookupError "movie_reviews"))
                      (construct [BaseSentimentAnalyzer])))
              (LookupError "movie_reviews"))
    as [Heq Hiff]; [reflexivity|reflexivity|].
  split; [now rewrite Heq|].
  apply Hiff. reflexivity.
Defined.

(** C3 as stated fails: an override of [train] that calls
    [super().train()] first and then fails in its own work makes
    [analyze] raise on a fresh instance with the trained flag set. *)
Lemma analyze_failed_train_flag_counterexample :
  untrained (construct [BaseSentimentAnalyzer])
  /\ fst (analyze (train_super_first (LookupError "movie_reviews")) "good"
            (construct [BaseSentimentAnalyzer]))
     = inl (LookupError "movie_reviews")
  /\ trained (snd (analyze (train_super_first (LookupError "movie_reviews"))
                     "good" (construct [BaseSentimentAnalyzer])))
  /\ ~ (forall (impl : M analyzer unit) (text : string)
               (self self' : analyzer) (e : PyExc),
          untrained self ->
          call_train impl self = (inl e, self') ->
          fst (analyze impl text self) = inl e
          /\ untrained (snd (analyze impl text self))).
Proof.
  split; [reflexivity|]. split; [reflexivity|]. split; [reflexivity|].
  intros Hall.
  destruct (Hall (train_super_first (LookupError "movie_reviews")) "good"
              (construct [BaseSentimentAnalyzer])
              (snd (call_train (train_super_first (LookupError "movie_reviews"))
                      (construct [BaseSentimentAnalyzer])))
              (LookupError "movie_reviews")) as [_ Hun];
    [reflexivity|reflexivity|].
  vm_compute in Hun. discriminate Hun.
Qed.

(** C4, as the code has it.  Right after construction the trained flag
    is false, for an instance of any class.  It becomes true only inside
    a [train()] call: whatever [train] the instance has, an [analyze]
    that finds the flag not set and leaves it set has made that call,
    ends where the call ends, and raises exactly when the call does.
    With the base [train()] the call always completes: an operation of
    the contract that sets the flag has returned normally and entered
    [train()] once. *)
Theorem trained_flag_false_until_trained :
  (forall mro : list (gmap string PyVal),
     untrained (construct mro) /\ ~ trained (construct mro))
  /\ (forall (impl : M analyzer unit) (text : string) (self : analyzer),
        ~ trained self ->
        trained (snd (analyze impl text self)) ->
        snd (analyze impl text self) = snd (call_train impl self)
        /\ (forall e, fst (analyze impl text self) = inl e
                      <-> fst (call_train impl self) = inl e)
        /\ (fst (call_train impl self) = inr tt
            -> fst (analyze impl text self) = inr VNone))
  /\ (forall (o : op) (self : analyzer),
        ~ trained self ->
        trained (snd (run_op o self)) ->
        fst (run_op o self) = inr VNone
        /\ train_calls (snd (run_op o self)) = S (train_calls self)).
Proof.
  split; [|split].
  - intros mro. split; [apply construct_untrained|].
    apply trained_not_untrained_l, construct_untrained.
  - intros impl text self Hn. unfold analyze, bind, getattr.
    destruct (dict self !! "_trained") as [v|].
    + destruct (truthy v); simpl; [intros Ht; contradiction|].
      intros _. destruct (call_train impl self) as [[e1|[]] s1]; simpl.
      * split; [reflexivity|]. split; [|discriminate].
        intros e. split; intros [= ->]; reflexivity.
      * split; [reflexivity|]. split; [split; discriminate|reflexivity].
    + destruct (mro_lookup (klass self) "_trained") as [v|];
        [|simpl; intros Ht; contradiction].
      destruct (truthy v); simpl; [intros Ht; contradiction|].
      intros _. destruct (call_train impl self) as [[e1|[]] s1]; simpl.
      * split; [reflexivity|]. split; [|discriminate].
        intros e. split; intros [= ->]; reflexivity.
      * split; [reflexivity|]. split; [split; discriminate|reflexivity].
  - intros o self Hn Ht. destruct o as [|text]; [split; reflexivity|].
    simpl in Ht |- *. revert Ht. unfold analyze, bind, getattr.
    destruct (dict self !! "_trained") as [v|].
    + destruct (truthy v); simpl; [intros Ht; contradiction|].
      intros _. split; reflexivity.
    + destruct (mro_lookup (klass self) "_trained") as [v|];
        [|simpl; intros Ht; contradiction].
      destruct (truthy v); simpl; [intros Ht; contradiction|].
      intros _. split; reflexivity.
Qed.

Lemma trained_flag_false_until_trained_witness :
  ~ trained (construct [BaseSentimentAnalyzer])
  /\ trained (snd (run_op (Analyze "good") (construct [BaseSentimentAnalyzer])))
  /\ train_calls (snd (run_op (Analyze "good")
                         (construct [BaseSentimentAnalyzer]))) = 1
  /\ snd (analyze (train_super_first (LookupError "movie_reviews")) "good"
            (construct [BaseSentimentAnalyzer]))
     = snd (call_train (train_super_first (LookupError "movie_reviews"))
              (construct [BaseSentimentAnalyzer])).
Proof.
  assert (Hn : ~ trained (construct [BaseSentimentAnalyzer]))
    by (intros Ht; vm_compute in Ht; discriminate Ht).
  split; [exact Hn|]. split; [reflexivity|]. split.
  - apply (proj2 (proj2 trained_flag_false_until_trained)
                 (Analyze "good") (construct [BaseSentimentAnalyzer]) Hn).
    reflexivity.
  - apply (proj1 (proj2 trained_flag_false_until_trained)
                 (train_super_first (LookupError "movie_reviews")) "good"
                 (construct [BaseSentimentAnalyzer]) Hn).
    reflexivity.
Defined.

(** C4 as stated fails on "only when a training step completes": with
    an override of [train] that calls [super().train()] first and then
    fails in its own work, [analyze] on a fresh instance leaves the flag
    set although the [train()] call raised. *)
Lemma trained_flag_set_by_failed_train_counterexample :
  ~ trained (construct [BaseSentimentAnalyzer])
  /\ trained (snd (analyze (train_super_first (LookupError "movie_reviews"))
                     "good" (construct [BaseSentimentAnalyzer])))
  /\ fst (analyze (train_super_first (LookupError "movie_reviews")) "good"
            (construct [BaseSentimentAnalyzer]))
     = inl (LookupError "movie_reviews")
  /\ ~ (forall (impl : M analyzer unit) (text : string) (self : analyzer),
          ~ trained self ->
          trained (snd (analyze impl text self)) ->
          fst (analyze impl text self) = inr VNone).
Proof.
  assert (Hn : ~ trained (construct [BaseSentimentAnalyzer]))
    by (intros Ht; vm_compute in Ht; discriminate Ht).
  split; [exact Hn|]. split; [reflexivity|]. split; [reflexivity|].
  intros Hall.
  assert (Hret : fst (analyze (train_super_first (LookupError "movie_reviews"))
                        "good" (construct [BaseSentimentAnalyzer]))
                 = inr VNone)
    by (apply Hall; [exact Hn|reflexivity]).
  vm_compute in Hret. discriminate Hret.
Qed.

(** C5.  [train()] called twice in a row on any instance returns
    normally both times and leaves the instance trained after each call;
    the second call changes no attribute of the instance.  Called on a
    fresh instance before any [analyze], it trains it at once: the
    [analyze] that follows enters [train()] no more and changes
    nothing. *)
Theorem train_idempotent :
  forall (self : analyzer),
    (fst (call_train train self) = inr tt
     /\ trained (snd (call_train train self)))
    /\ (fst (call_train train (snd (call_train train self))) = inr tt
        /\ trained (snd (call_train train (snd (call_train train self)))))
    /\ (dict (snd (call_train train (snd (call_train train self))))
        = dict (snd (call_train train self))
        /\ klass (snd (call_train train (snd (call_train train self))))
           = klass (snd (call_train train self)))
    /\ (forall (mro : list (gmap string PyVal)) (text : string),
          trained (snd (call_train train (construct mro)))
          /\ analyze train text (snd (call_train train (construct mro)))
             = (inr VNone, snd (call_train train (construct mro)))).
Proof.
  intros self.
  assert (Ht : forall s, trained (snd (call_train train s)))
    by (intros s; unfold trained; simpl; apply lookup_insert_eq).
  split; [split; [reflexivity|apply Ht]|].
  split; [split; [reflexivity|apply Ht]|].
  split.
  - split; [|reflexivity]. simpl. apply insert_insert_eq.
  - intros mro text. split; [apply Ht|]. apply analyze_trained, Ht.
Qed.

(** C6.  From a trained instance, no sequence of [train] and [analyze]
    calls, in any order and of any length, leaves an instance that is not
    trained; in particular none leaves it untrained. *)
Theorem trained_is_permanent :
  forall (os : list op) (self : analyzer),
    trained self ->
    trained (run_ops os self) /\ ~ untrained (run_ops os self).
Proof.
  intros os self Ht.
  assert (Ht' : trained (run_ops os self)) by now apply run_ops_trained.
  split; [exact Ht'|]. now apply trained_not_untrained.
Qed.

Lemma trained_is_permanent_witness :
  trained (snd (run_op (Analyze "good") (construct [BaseSentimentAnalyzer])))
  /\ trained (run_ops [Train; Analyze "bad"; Analyze "fine"; Train]
                (snd (run_op (Analyze "good")
                        (construct [BaseSentimentAnalyzer])))).
Proof.
  split; [reflexivity|].
  apply (trained_is_permanent [Train; Analyze "bad"; Analyze "fine"; Train]
           (snd (run_op (Analyze "good") (construct [BaseSentimentAnalyzer])))).
  reflexivity.
Defined.




(** C9.  The two kind constants are different strings: [DISCRETE] is
    ["ds"], [CONTINUOUS] is ["co"], and neither the strings nor the
    Python values they make compare equal. *)
Theorem DISCRETE_neq_CONTINUOUS :
  DISCRETE = "ds" /\ CONTINUOUS = "co"
  /\ DISCRETE <> CONTINUOUS
  /\ String.eqb DISCRETE CONTINUOUS = false
  /\ VStr DISCRETE <> VStr CONTINUOUS.
Proof.
  repeat split; try reflexivity; discriminate.
Qed.

(** C10.  The base [train()] returns normally and its whole effect on the
    instance is [_trained = True]: every other attribute of the instance,
    its class and the count of calls are as before, and so is what
    [kind] evaluates to.  Construction binds nothing but [_trained]:
    [kind] on the new instance is what its class gives. *)
Theorem train_frame :
  forall (self : analyzer) (mro : list (gmap string PyVal)),
    (fst (train self) = inr tt
     /\ dict (snd (train self)) = <["_trained" := VBool true]> (dict self)
     /\ klass (snd (train self)) = klass self
     /\ train_calls (snd (train self)) = train_calls self)
    /\ (forall name : string,
          name <> "_trained" ->
          dict (snd (train self)) !! name = dict self !! name
          /\ fst (getattr name (snd (train self))) = fst (getattr name self))
    /\ fst (getattr "kind" (snd (train self))) = fst (getattr "kind" self)
    /\ (dict (construct mro) = {[ "_trained" := VBool false ]}
        /\ klass (construct mro) = mro
        /\ fst (getattr "kind" (construct mro))
           = fst (getattr "kind" (new_instance mro))).
Proof.
  intros self mro.
  assert (Hframe : forall name : string,
             name <> "_trained" ->
             dict (snd (train self)) !! name = dict self !! name
             /\ fst (getattr name (snd (train self)))
                = fst (getattr name self)).
  { intros name Hne.
    assert (Hlk : dict (snd (train self)) !! name = dict self !! name)
      by (simpl; apply lookup_insert_ne; congruence).
    split; [exact Hlk|].
    unfold getattr. rewrite Hlk. simpl klass.
    destruct (dict self !! name); [reflexivity|].
    destruct (mro_lookup (klass self) name); reflexivity. }
  split; [repeat split|].
  split; [exact Hframe|].
  split; [apply Hframe; discriminate|].
  split; [|split; [reflexivity|]].
  - unfold construct, __init__, setattr, new_instance. simpl.
    apply insert_empty.
  - unfold getattr, construct, __init__, setattr, new_instance. simpl.
    rewrite lookup_insert_ne by discriminate.
    rewrite lookup_empty.
    destruct (mro_lookup mro "kind"); reflexivity.
Qed.

Lemma train_frame_witness :
  fst (getattr "kind" (snd (train (construct [BaseSentimentAnalyzer]))))
  = inr (VStr DISCRETE).
Proof.
  destruct (train_frame (construct [BaseSentimentAnalyzer])
              [BaseSentimentAnalyzer]) as (_ & _ & Hkind & _).
  rewrite Hkind. reflexivity.
Defined.

(** * Further properties of the code *)

(** ** Consuming the generator of [itokenize] *)

Section Consumers.

Implicit Types (g : generator) (l : list string).

Lemma remaining_closed g : status g = GEN_CLOSED -> remaining g = [].
Proof. intros Hc. unfold remaining. now rewrite Hc. Qed.

(** Asking for [n] tokens gives the first [n] of those left, leaves the
    generator where [n] requests leave it, and leaves the others for
    later. *)
Lemma request_take n : forall g,
  fst (request n g) = take n (remaining g)
  /\ snd (request n g) = advance n g
  /\ remaining (advance n g) = drop n (remaining g).
Proof.
  induction n as [|n IH]; intros g.
  - simpl. now rewrite drop_0.
  - destruct (decide (status g = GEN_CLOSED)) as [Hc|Ho].
    + cbn [request advance]. rewrite (gen_next_closed g Hc). cbn [fst snd].
      rewrite (advance_closed n g Hc), (remaining_closed g Hc).
      now rewrite drop_nil.
    + destruct (items g !! cursor g) as [t|] eqn:Hlk.
      * cbn [request advance]. rewrite (gen_next_yield g t Ho Hlk).
        rewrite (remaining_yield g t Ho Hlk). cbn [snd].
        destruct (IH {| items := items g; cursor := S (cursor g);
                        status := GEN_SUSPENDED |}) as (Hf & Hs & Hr).
        destruct (request n _) as [ts g'']. simpl in Hf, Hs |- *.
        now rewrite Hf, Hs, Hr.
      * cbn [request advance]. rewrite (gen_next_stop g Ho Hlk).
        rewrite (remaining_stop g Hlk). cbn [fst snd].
        rewrite advance_closed by reflexivity.
        now rewrite drop_nil.
Qed.

Lemma advance_genexpr_min n l :
  cursor (advance n (genexpr l)) = Nat.min n (length l).
Proof.
  destruct (le_lt_dec n (length l)) as [Hle|Hlt].
  - destruct (advance_genexpr_cursor n l Hle) as (_ & Hc & _). lia.
  - rewrite (advance_genexpr_past n l Hlt). simpl. lia.
Qed.

(** The request number [n] on a fresh generator expression yields the
    element of index [n]. *)
Lemma itokenize_eager_yield g n t :
  g = genexpr (items g) ->
  items g !! n = Some t ->
  gen_next (advance n g) = (inr t, advance (S n) g).
Proof.
  intros Hg Hlk. rewrite Hg in Hlk |- *. simpl in Hlk.
  set (l := items g) in *. clearbody l.
  assert (Hn : n < length l) by (eapply lookup_lt_Some; exact Hlk).
  destruct (advance_genexpr_cursor n l) as (Hi & Hc & Ho); [lia|].
  rewrite advance_step.
  rewrite (gen_next_yield (advance n (genexpr l)) t Ho)
    by (now rewrite Hi, Hc).
  reflexivity.
Qed.

(** [next] raises nothing but [StopIteration]. *)
Lemma gen_next_only_stops g e : fst (gen_next g) = inl e -> e = StopIteration.
Proof.
  unfold gen_next.
  destruct (status g); simpl; try (now intros [= <-]);
    destruct (items g !! cursor g); simpl; try discriminate;
    now intros [= <-].
Qed.

End Consumers.

(** X1.  A caller that takes at most [n] tokens from the generator of
    [itokenize] and then materializes the rest gets the token list of
    [tokenize] cut at [n]: the first [n] tokens, then the others, nothing
    lost and nothing twice, with [min n len] tokens handed out by the
    [n] requests. *)
Theorem itokenize_partial_then_list :
  forall (T : Type) (Tok : BaseTokenizer T)
         (text : string) (args : Args) (kwargs : KwArgs) (self self' : T)
         (l : list string) (n : nat),
    tokenize text args kwargs self = (inr l, self') ->
    exists g g',
      itokenize text args kwargs self = (inr g, self')
      /\ fst (request n g) = take n l
      /\ cursor (snd (request n g)) = Nat.min n (length l)
      /\ py_list (snd (request n g)) = Some (drop n l, g')
      /\ (fst (request n g) ++ drop n l)%list = l.
Proof.
  intros T Tok text args kwargs self self' l n Htk.
  destruct (request_take n (genexpr l)) as (Hf & Hs & Hr).
  rewrite remaining_genexpr in Hf, Hr.
  destruct (py_list_remaining (advance n (genexpr l))) as (g' & Hd & _ & _).
  exists (genexpr l), g'.
  split; [unfold itokenize, bind; now rewrite Htk|].
  split; [exact Hf|].
  split; [rewrite Hs; apply advance_genexpr_min|].
  split; [now rewrite Hs, Hd, Hr|].
  rewrite Hf. apply take_drop.
Qed.

Lemma itokenize_partial_then_list_witness :
  tokenize "the quick fox" [] [] whitespace_tokenizer
  = (inr ["the"; "quick"; "fox"], whitespace_tokenizer)
  /\ exists g g',
       itokenize "the quick fox" [] [] whitespace_tokenizer
       = (inr g, whitespace_tokenizer)
       /\ fst (request 2 g) = take 2 ["the"; "quick"; "fox"]
       /\ cursor (snd (request 2 g)) = Nat.min 2 (length ["the"; "quick"; "fox"])
       /\ py_list (snd (request 2 g)) = Some (drop 2 ["the"; "quick"; "fox"], g')
       /\ (fst (request 2 g) ++ drop 2 ["the"; "quick"; "fox"])%list
          = ["the"; "quick"; "fox"].
Proof.
  split; [reflexivity|].
  apply (itokenize_partial_then_list WhitespaceTokenizer _
           "the quick fox" [] [] whitespace_tokenizer whitespace_tokenizer
           ["the"; "quick"; "fox"] 2).
  reflexivity.
Defined.

(** X2.  A failure of [tokenize] is the failure of the [itokenize] call
    itself, with the same exception and the same instance state, and
    [itokenize] fails in no other case; the generator it returns
    otherwise raises nothing but [StopIteration], however many requests
    have been made on it. *)
Theorem itokenize_fails_at_call :
  forall (T : Type) (Tok : BaseTokenizer T)
         (text : string) (args : Args) (kwargs : KwArgs) (self : T),
    (forall (e : PyExc) (self' : T),
       itokenize text args kwargs self = (inl e, self')
       <-> tokenize text args kwargs self = (inl e, self'))
    /\ (forall (g : generator) (self' : T) (n : nat) (e : PyExc),
          itokenize text args kwargs self = (inr g, self') ->
          fst (gen_next (advance n g)) = inl e ->
          e = StopIteration /\ length (items g) <= n).
Proof.
  intros T Tok text args kwargs self. split.
  - intros e self'. unfold itokenize, bind, ret.
    destruct (tokenize text args kwargs self) as [[e1|l] s1]; split;
      intros Heq; try discriminate Heq; now injection Heq as -> ->.
  - intros g self' n e Hit Hnext.
    split; [now apply (gen_next_only_stops (advance n g))|].
    destruct (itokenize_inv _ _ _ _ _ _ Hit) as [_ Hg].
    destruct (le_lt_dec (length (items g)) n) as [Hle|Hlt]; [exact Hle|].
    destruct (lookup_lt_is_Some_2 (items g) n Hlt) as [t Hlk].
    rewrite (itokenize_eager_yield g n t Hg Hlk) in Hnext.
    discriminate Hnext.
Qed.

Lemma itokenize_fails_at_call_witness :
  itokenize "" [] [] strict_tokenizer
  = (inl (ValueError "empty text"), strict_tokenizer).
Proof.
  apply (proj1 (itokenize_fails_at_call StrictTokenizer _ "" [] []
                  strict_tokenizer)).
  reflexivity.
Defined.

Section RepeatedCalls.

Context {T : Type} `{BaseTokenizer T}.

Lemma itokenize_spy_log text args kwargs (s : Spy T) :
  calls (snd (itokenize text args kwargs s))
  = (calls s ++ [(text, args, kwargs)])%list.
Proof.
  unfold itokenize, bind, ret. simpl.
  destruct (tokenize text args kwargs (inner s)) as [[e|l] s1]; reflexivity.
Qed.

Lemma itokenize_each_log reqs : forall s : Spy T,
  calls (itokenize_each reqs s) = (calls s ++ reqs)%list.
Proof.
  induction reqs as [|[[text args] kwargs] reqs IH]; intros s.
  - simpl. now rewrite app_nil_r.
  - cbn [itokenize_each]. rewrite IH, itokenize_spy_log.
    now rewrite <- app_assoc.
Qed.

End RepeatedCalls.

(** X3.  [itokenize] keeps nothing from one call to the next: over any
    sequence of [itokenize] calls on one tokenizer, [tokenize] is called
    once per call, in the order of the calls, each time with the text
    and the extra arguments of that call, whether the calls succeed or
    fail. *)
Theorem itokenize_calls_tokenize_every_time :
  forall (T : Type) (Tok : BaseTokenizer T)
         (reqs : list (string * Args * KwArgs)) (self : T),
    calls (itokenize_each reqs (spy self)) = reqs
    /\ length (calls (itokenize_each reqs (spy self))) = length reqs.
Proof.
  intros T Tok reqs self.
  assert (Hlog : calls (itokenize_each reqs (spy self)) = reqs)
    by (now rewrite itokenize_each_log).
  split; [exact Hlog|now rewrite Hlog].
Qed.

(** ** The life cycle of an analyzer *)

Section LifeCycle.

Implicit Types (self : analyzer) (impl : M analyzer unit) (text : string).

Lemma base_has_no_trained :
  mro_lookup [BaseSentimentAnalyzer] "_trained" = None.
Proof.
  cbn [mro_lookup]. unfold BaseSentimentAnalyzer.
  now rewrite lookup_singleton_ne by discriminate.
Qed.

End LifeCycle.

(** X4.  On an instance on which [__init__] has not run, of any class
    whose own namespaces do not bind [_trained], [analyze] raises
    [AttributeError] for [_trained], enters no [train()] and leaves the
    instance as it was; once [__init__] has run on it, the same call
    returns [None]. *)
Theorem analyze_before_init_raises :
  forall (subclasses : list (gmap string PyVal)) (impl : M analyzer unit)
         (text : string),
    Forall (fun ns : gmap string PyVal => ns !! "_trained" = None) subclasses ->
    analyze impl text (new_instance (subclasses ++ [BaseSentimentAnalyzer]))
    = (inl (AttributeError "_trained"),
       new_instance (subclasses ++ [BaseSentimentAnalyzer]))
    /\ fst (analyze train text (construct (subclasses ++ [BaseSentimentAnalyzer])))
       = inr VNone.
Proof.
  intros subclasses impl text Hsub. split.
  - unfold analyze, bind, getattr, new_instance. cbn [dict klass].
    rewrite lookup_empty.
    now rewrite (mro_lookup_app_None _ _ _ Hsub), base_has_no_trained.
  - now rewrite (analyze_train_untrained _ _ (construct_untrained _)).
Qed.

Lemma analyze_before_init_raises_witness :
  analyze train "good"
    (new_instance [{[ "RETURN_TYPE" := VStr "Sentiment" ]};
                   BaseSentimentAnalyzer])
  = (inl (AttributeError "_trained"),
     new_instance [{[ "RETURN_TYPE" := VStr "Sentiment" ]};
                   BaseSentimentAnalyzer]).
Proof.
  apply (proj1 (analyze_before_init_raises
                  [{[ "RETURN_TYPE" := VStr "Sentiment" ]}] train "good"
                  ltac:(apply Forall_cons; split;
                        [reflexivity|apply Forall_nil_2]))).
Defined.

(** X5.  Lazy training is tried again for as long as it leaves the flag
    unset: with a [train] that leaves an untrained instance untrained,
    whether it raises or returns, each [analyze] call of a sequence
    enters [train()] once more and the instance stays untrained. *)
Theorem analyze_retries_while_untrained :
  forall (impl : M analyzer unit) (texts : list string) (self : analyzer),
    (forall s, untrained s ->
               untrained (snd (call_train impl s))
               /\ train_calls (snd (call_train impl s)) = S (train_calls s)) ->
    untrained self ->
    untrained (analyze_each impl texts self)
    /\ train_calls (analyze_each impl texts self)
       = train_calls self + length texts.
Proof.
  intros impl texts self Himpl. revert self.
  induction texts as [|text texts IH]; intros self Hu.
  - simpl. split; [exact Hu|lia].
  - cbn [analyze_each length].
    assert (Hs : snd (analyze impl text self) = snd (call_train impl self)).
    { rewrite (analyze_untrained impl text self Hu).
      now destruct (call_train impl self) as [[e|[]] s1]. }
    rewrite Hs. destruct (Himpl self Hu) as [Hu' Hc].
    destruct (IH _ Hu') as [Hu'' Hc'']. split; [exact Hu''|]. lia.
Qed.

Lemma analyze_retries_while_untrained_witness :
  train_calls (analyze_each (failing_train (LookupError "movie_reviews"))
                 ["good"; "bad"; "fine"] (construct [BaseSentimentAnalyzer]))
  = 0 + 3.
Proof.
  apply (analyze_retries_while_untrained
           (failing_train (LookupError "movie_reviews"))
           ["good"; "bad"; "fine"] (construct [BaseSentimentAnalyzer])).
  - intros s Hs. split; [exact Hs|reflexivity].
  - reflexivity.
Defined.

(** X6.  Once a [train()] call has left the flag set, [analyze] never
    calls [train()] again, even when that call raised: with a [train]
    that sets the flag before it returns or fails, a sequence of
    [analyze] calls on an untrained instance enters [train()] exactly
    once, in its first call, and every later call returns [None] and
    changes nothing. *)
Theorem analyze_never_retrains_once_flag_set :
  forall (impl : M analyzer unit) (text : string) (texts : list string)
         (self : analyzer),
    untrained self ->
    trained (snd (call_train impl self)) ->
    train_calls (snd (call_train impl self)) = S (train_calls self) ->
    analyze_each impl (text :: texts) self = snd (call_train impl self)
    /\ train_calls (analyze_each impl (text :: texts) self)
       = S (train_calls self)
    /\ (forall text',
          analyze impl text' (analyze_each impl (text :: texts) self)
          = (inr VNone, analyze_each impl (text :: texts) self)).
Proof.
  intros impl text texts self Hu Ht Hc.
  assert (Hs : snd (analyze impl text self) = snd (call_train impl self)).
  { rewrite (analyze_untrained impl text self Hu).
    now destruct (call_train impl self) as [[e|[]] s1]. }
  assert (Hall : analyze_each impl (text :: texts) self
                 = snd (call_train impl self)).
  { cbn [analyze_each]. rewrite Hs. now apply analyze_each_trained. }
  rewrite Hall. split; [reflexivity|]. split; [exact Hc|].
  intros text'. now apply analyze_trained.
Qed.

Lemma analyze_never_retrains_once_flag_set_witness :
  fst (analyze (train_super_first (LookupError "movie_reviews")) "good"
         (construct [BaseSentimentAnalyzer]))
  = inl (LookupError "movie_reviews")
  /\ train_calls (analyze_each (train_super_first (LookupError "movie_reviews"))
                    ["good"; "bad"; "fine"] (construct [BaseSentimentAnalyzer]))
     = 1.
Proof.
  split; [reflexivity|].
  apply (analyze_never_retrains_once_flag_set
           (train_super_first (LookupError "movie_reviews"))
           "good" ["bad"; "fine"] (construct [BaseSentimentAnalyzer]));
    reflexivity.
Defined.

Section Operations.

Implicit Types (self : analyzer) (o : op) (os : list op).

Lemma run_op_klass o self : klass (snd (run_op o self)) = klass self.
Proof.
  destruct o as [|text]; [reflexivity|]. simpl.
  destruct (analyze_state train text self) as [Hs|Hs]; now rewrite Hs.
Qed.

Lemma run_op_dict_other o self (name : string) :
  name <> "_trained" ->
  dict (snd (run_op o self)) !! name = dict self !! name.
Proof.
  intros Hne.
  assert (Hins : <["_trained" := VBool true]> (dict self) !! name
                 = dict self !! name)
    by (apply lookup_insert_ne; congruence).
  destruct o as [|text]; [exact Hins|]. simpl.
  destruct (analyze_state train text self) as [Hs|Hs]; rewrite Hs;
    [reflexivity|exact Hins].
Qed.

Lemma run_op_trained_dict o self :
  trained self ->
  dict (snd (run_op o self)) = dict self
  /\ train_calls (snd (run_op o self))
     = train_calls self + (if is_train o then 1 else 0).
Proof.
  intros Ht. destruct o as [|text]; simpl.
  - split; [now apply insert_id|lia].
  - rewrite (analyze_trained _ _ _ Ht). simpl. split; [reflexivity|lia].
Qed.

Lemma run_op_untrained_dict o self :
  untrained self ->
  dict (snd (run_op o self)) = <["_trained" := VBool true]> (dict self)
  /\ train_calls (snd (run_op o self)) = S (train_calls self).
Proof.
  intros Hu. destruct o as [|text]; simpl; [split; reflexivity|].
  rewrite (analyze_train_untrained _ _ Hu). split; reflexivity.
Qed.

Lemma run_ops_trained_dict os : forall self,
  trained self ->
  dict (run_ops os self) = dict self
  /\ train_calls (run_ops os self)
     = train_calls self + length (List.filter is_train os).
Proof.
  induction os as [|o os IH]; intros self Ht.
  - simpl. split; [reflexivity|lia].
  - cbn [run_ops List.filter].
    destruct (run_op_trained_dict o self Ht) as [Hd Hc].
    destruct (IH _ (run_op_trained o self Ht)) as [Hd' Hc'].
    split; [now rewrite Hd', Hd|].
    rewrite Hc', Hc. destruct (is_train o); simpl; lia.
Qed.

End Operations.

(** X7.  No sequence of [train] and [analyze] calls touches anything but
    [_trained]: on any instance, every other attribute of the instance
    and its class are as before, and so is what every other attribute
    name evaluates to on it, [kind] among them. *)
Theorem run_ops_frame :
  forall (os : list op) (self : analyzer) (name : string),
    name <> "_trained" ->
    dict (run_ops os self) !! name = dict self !! name
    /\ klass (run_ops os self) = klass self
    /\ fst (getattr name (run_ops os self)) = fst (getattr name self).
Proof.
  intros os self name Hne.
  assert (Hboth : dict (run_ops os self) !! name = dict self !! name
                  /\ klass (run_ops os self) = klass self).
  { revert self. induction os as [|o os IH]; intros self; [now split|].
    cbn [run_ops]. destruct (IH (snd (run_op o self))) as [Hd Hk].
    split.
    - now rewrite Hd, run_op_dict_other.
    - now rewrite Hk, run_op_klass. }
  destruct Hboth as [Hd Hk]. split; [exact Hd|]. split; [exact Hk|].
  unfold getattr. rewrite Hd, Hk.
  destruct (dict self !! name); [reflexivity|].
  destruct (mro_lookup (klass self) name); reflexivity.
Qed.

Lemma run_ops_frame_witness :
  fst (getattr "kind" (run_ops [Analyze "good"; Train; Analyze "bad"]
                         (construct [BaseSentimentAnalyzer])))
  = fst (getattr "kind" (construct [BaseSentimentAnalyzer])).
Proof.
  apply (run_ops_frame [Analyze "good"; Train; Analyze "bad"]
           (construct [BaseSentimentAnalyzer]) "kind").
  discriminate.
Defined.

(** X8.  On an untrained instance every non-empty sequence of [train]
    and [analyze] calls leaves the attributes one [train()] leaves, and
    enters [train()] once for each explicit [train] call plus once more
    exactly when the sequence starts with [analyze]: lazy training
    happens at most once and only if no [train] call came first. *)
Theorem run_ops_trains_lazily_at_most_once :
  forall (o : op) (os : list op) (self : analyzer),
    untrained self ->
    dict (run_ops (o :: os) self) = <["_trained" := VBool true]> (dict self)
    /\ train_calls (run_ops (o :: os) self)
       = train_calls self + length (List.filter is_train (o :: os))
         + (if is_train o then 0 else 1).
Proof.
  intros o os self Hu. cbn [run_ops List.filter].
  destruct (run_op_untrained_dict o self Hu) as [Hd Hc].
  assert (Ht : trained (snd (run_op o self))).
  { unfold trained. rewrite Hd. apply lookup_insert_eq. }
  destruct (run_ops_trained_dict os _ Ht) as [Hd' Hc'].
  split; [now rewrite Hd', Hd|].
  rewrite Hc', Hc. destruct (is_train o); simpl; lia.
Qed.

Lemma run_ops_trains_lazily_at_most_once_witness :
  train_calls (run_ops [Analyze "good"; Train; Analyze "bad"; Train]
                 (construct [BaseSentimentAnalyzer]))
  = 0 + 2 + 1.
Proof.
  apply (run_ops_trains_lazily_at_most_once (Analyze "good")
           [Train; Analyze "bad"; Train] (construct [BaseSentimentAnalyzer])).
  reflexivity.
Defined.

(** X9.  The trained state lasts only until [__init__] runs again:
    [__init__] on a trained instance leaves it untrained, all its other
    attributes as they were, and the next [analyze] enters [train()]
    once more and leaves it trained again. *)
Theorem init_again_resets_training :
  forall (self : analyzer) (text : string),
    trained self ->
    untrained (snd (__init__ self))
    /\ (forall name : string,
          name <> "_trained" ->
          dict (snd (__init__ self)) !! name = dict self !! name)
    /\ train_calls (snd (analyze train text (snd (__init__ self))))
       = S (train_calls self)
    /\ dict (snd (analyze train text (snd (__init__ self)))) = dict self.
Proof.
  intros self text Ht.
  assert (Hu : untrained (snd (__init__ self)))
    by (unfold untrained; simpl; apply lookup_insert_eq).
  split; [exact Hu|]. split.
  - intros name Hne. simpl. apply lookup_insert_ne. congruence.
  - rewrite (analyze_train_untrained _ _ Hu). simpl.
    split; [reflexivity|].
    rewrite insert_insert_eq. now apply insert_id.
Qed.

Lemma init_again_resets_training_witness :
  untrained (snd (__init__ (snd (call_train train
                                   (construct [BaseSentimentAnalyzer]))))).
Proof.
  apply (init_again_resets_training
           (snd (call_train train (construct [BaseSentimentAnalyzer])))
           "good").
  reflexivity.
Defined.

(** ** Abstract base classes *)

Section AbstractMethods.

Implicit Types (mro : list (gmap string bool)) (ns : gmap string bool)
  (name : string).

(** A method is in [__abstractmethods__] exactly when the definition the
    class sees for it is an abstract one. *)
Lemma elem_of_abstractmethods mro : forall name,
  name ∈ abstractmethods mro <-> method_lookup mro name = Some true.
Proof.
  induction mro as [|ns bases IH]; intros name.
  - simpl. split; [intros Hin; now apply not_elem_of_empty in Hin|discriminate].
  - cbn [abstractmethods]. rewrite elem_of_union, elem_of_dom, elem_of_filter.
    rewrite IH. cbn [method_lookup].
    destruct (ns !! name) as [a|] eqn:Hlk.
    + split.
      * intros [[a' Hf]|[Hp _]]; [|exact Hp].
        apply map_lookup_filter_Some in Hf as [Hl Ha]. simpl in Ha.
        congruence.
      * intros [= ->]. left. exists true.
        apply map_lookup_filter_Some. now split.
    + split.
      * intros [[a' Hf]|[Hp _]]; [|exact Hp].
        apply map_lookup_filter_Some in Hf as [Hl _]. congruence.
      * intros Hb. right. now split.
Qed.

Lemma object_new_ok mro :
  object_new mro = inr tt <-> forall name, method_lookup mro name <> Some true.
Proof.
  unfold object_new. destruct (decide (abstractmethods mro = ∅)) as [He|Hne].
  - split; [|reflexivity]. intros _ name Hlk.
    apply elem_of_abstractmethods in Hlk. rewrite He in Hlk.
    now apply not_elem_of_empty in Hlk.
  - split; [discriminate|]. intros Hall. exfalso. apply Hne.
    apply leibniz_equiv, elem_of_equiv_empty. intros name Hin.
    apply elem_of_abstractmethods in Hin. now apply (Hall name).
Qed.

Lemma method_lookup_app_not_overridden subs bases name :
  Forall (fun ns => ns !! name <> Some false) subs ->
  method_lookup bases name = Some true ->
  method_lookup (subs ++ bases) name = Some true.
Proof.
  intros Hsub Hb. induction Hsub as [|ns subs Hns _ IH]; [exact Hb|].
  cbn [app method_lookup]. destruct (ns !! name) as [[|]|]; congruence.
Qed.

Lemma method_lookup_concrete subs name :
  Forall (map_Forall (fun (_ : string) (a : bool) => a = false)) subs ->
  method_lookup subs name <> Some true.
Proof.
  induction 1 as [|ns subs Hns _ IH]; [discriminate|].
  cbn [method_lookup]. destruct (ns !! name) as [a|] eqn:Hlk; [|exact IH].
  rewrite (Hns name a Hlk). discriminate.
Qed.

Lemma method_lookup_app_None subs bases name :
  method_lookup subs name = None ->
  method_lookup (subs ++ bases) name = method_lookup bases name.
Proof.
  induction subs as [|ns subs IH]; [reflexivity|].
  cbn [app method_lookup]. destruct (ns !! name); [discriminate|exact IH].
Qed.

Lemma method_lookup_app_Some subs bases name a :
  method_lookup subs name = Some a ->
  method_lookup (subs ++ bases) name = Some a.
Proof.
  induction subs as [|ns subs IH]; [discriminate|].
  cbn [app method_lookup]. destruct (ns !! name); [trivial|exact IH].
Qed.

(** Each base class declares its method abstract, and no other. *)
Lemma abstract_bases_one B m :
  In (B, m) abstract_bases ->
  B !! m = Some true /\ forall name, B !! name = Some true -> name = m.
Proof.
  unfold abstract_bases. simpl.
  intros [[= <- <-]|[[= <- <-]|[[= <- <-]|[[= <- <-]|[[= <- <-]|[]]]]]].
  - unfold BaseTagger_methods.
    split; [apply lookup_singleton_eq|]. intros name Hlk.
    now apply lookup_singleton_Some in Hlk as [<- _].
  - unfold BaseNPExtractor_methods.
    split; [apply lookup_singleton_eq|]. intros name Hlk.
    now apply lookup_singleton_Some in Hlk as [<- _].
  - unfold BaseTokenizer_methods. split; [apply lookup_insert_eq|].
    intros name Hlk.
    apply lookup_insert_Some in Hlk as [[<- _]|[_ Hlk]]; [reflexivity|].
    apply lookup_singleton_Some in Hlk as [_ Hf]. discriminate Hf.
  - unfold BaseSentimentAnalyzer_methods. split; [reflexivity|].
    intros name Hlk.
    apply lookup_insert_Some in Hlk as [[_ Hf]|[_ Hlk]]; [discriminate Hf|].
    apply lookup_insert_Some in Hlk as [[_ Hf]|[_ Hlk]]; [discriminate Hf|].
    now apply lookup_singleton_Some in Hlk as [<- _].
  - unfold BaseParser_methods.
    split; [apply lookup_singleton_eq|]. intros name Hlk.
    now apply lookup_singleton_Some in Hlk as [<- _].
Qed.

End AbstractMethods.

(** X10.  None of the five base classes can be instantiated, and neither
    can a class derived from one of them whose own classes do not define
    the base's abstract method (whatever else they define, [train] or
    [itokenize] for instance, and whatever the base itself derives
    from): creating the instance raises [TypeError], and the abstract
    method is among those it reports. *)
Theorem abstract_base_not_instantiable :
  forall (B : gmap string bool) (m : string)
         (subclasses bases : list (gmap string bool)),
    In (B, m) abstract_bases ->
    Forall (fun ns : gmap string bool => ns !! m <> Some false) subclasses ->
    m ∈ abstractmethods (subclasses ++ B :: bases)
    /\ object_new (subclasses ++ B :: bases)
       = inl (TypeError_abstract (abstractmethods (subclasses ++ B :: bases))).
Proof.
  intros B m subclasses bases HB Hsub.
  destruct (abstract_bases_one B m HB) as [Hm _].
  assert (Hin : m ∈ abstractmethods (subclasses ++ B :: bases)).
  { apply elem_of_abstractmethods.
    apply method_lookup_app_not_overridden; [exact Hsub|].
    cbn [method_lookup]. now rewrite Hm. }
  split; [exact Hin|].
  unfold object_new.
  destruct (decide (abstractmethods (subclasses ++ B :: bases) = ∅)) as [He|];
    [|reflexivity].
  rewrite He in Hin. now apply not_elem_of_empty in Hin.
Qed.

Lemma abstract_base_not_instantiable_witness :
  object_new [ {[ "train" := false ]}; BaseSentimentAnalyzer_methods ]
  = inl (TypeError_abstract
           (abstractmethods [ {[ "train" := false ]};
                              BaseSentimentAnalyzer_methods ])).
Proof.
  apply (abstract_base_not_instantiable BaseSentimentAnalyzer_methods
           "analyze" [ {[ "train" := false ]} ] []).
  - simpl. tauto.
  - apply Forall_cons. split; [discriminate|apply Forall_nil_2].
Defined.

(** X11.  A class derived from [BaseTagger], [BaseNPExtractor],
    [BaseSentimentAnalyzer] or [BaseParser] through classes that declare
    no abstract method of their own can be instantiated exactly when one
    of those classes defines the base's abstract method. *)
Theorem concrete_subclass_instantiable_iff :
  forall (B : gmap string bool) (m : string)
         (subclasses : list (gmap string bool)),
    In (B, m) abstract_bases ->
    B <> BaseTokenizer_methods ->
    Forall (map_Forall (fun (_ : string) (a : bool) => a = false)) subclasses ->
    object_new (subclasses ++ [B]) = inr tt
    <-> method_lookup subclasses m = Some false.
Proof.
  intros B m subclasses HB _ Hsub.
  destruct (abstract_bases_one B m HB) as [Hm Honly].
  rewrite object_new_ok. split.
  - intros Hall.
    destruct (method_lookup subclasses m) as [[|]|] eqn:Hlk; [| reflexivity |].
    + exfalso. now apply (method_lookup_concrete subclasses m Hsub).
    + exfalso. apply (Hall m).
      rewrite (method_lookup_app_None _ _ _ Hlk). cbn [method_lookup].
      now rewrite Hm.
  - intros Hdef name Hlk.
    destruct (method_lookup subclasses name) as [a|] eqn:Hs.
    + rewrite (method_lookup_app_Some _ _ _ _ Hs) in Hlk.
      injection Hlk as ->.
      now apply (method_lookup_concrete subclasses name Hsub).
    + rewrite (method_lookup_app_None _ _ _ Hs) in Hlk.
      cbn [method_lookup] in Hlk.
      destruct (B !! name) as [a|] eqn:HBn; [|discriminate].
      injection Hlk as ->. apply Honly in HBn. subst name. congruence.
Qed.

Lemma concrete_subclass_instantiable_iff_witness :
  object_new [ {[ "analyze" := false ]}; BaseSentimentAnalyzer_methods ]
  = inr tt.
Proof.
  apply (concrete_subclass_instantiable_iff BaseSentimentAnalyzer_methods
           "analyze" [ {[ "analyze" := false ]} ]).
  - simpl. tauto.
  - intros Heq.
    assert (Hlk : BaseSentimentAnalyzer_methods !! "tokenize"
                  = BaseTokenizer_methods !! "tokenize") by now rewrite Heq.
    vm_compute in Hlk. discriminate Hlk.
  - apply Forall_cons. split; [|apply Forall_nil_2].
    intros name a Hlk. now apply lookup_singleton_Some in Hlk as [_ <-].
  - reflexivity.
Defined.
